(** * Budget Buddy: the HTTP facade of [app.py]

    A shallow embedding of [app.py]: the start-up code that builds the
    process-wide [model] handle, the query executor
    [execute_budget_buddy], and the two Flask handlers [check] and
    [execute]; followed by the properties of its specification.

    What belongs to libraries is kept abstract and quantified over:
    - [request.get_json(silent=True)] is represented by the Python value
      it returns ([None] when the body is absent or does not parse);
      [execute_raw] adds the case where the call itself raises;
    - a [GenerativeModel] is a record holding the outcome of its
      [generate_content] method;
    - [jsonify(d)] is the dictionary [d] itself, paired with the status.
    Exceptions are those deriving from [Exception]; [print] is an event
    of the trace and does not fail. *)

From Stdlib Require Import List String Ascii ZArith NArith Bool Lia Setoid SpecFloat.
Import ListNotations.
Local Open Scope list_scope.
Set Warnings "-register-all".

(** ** Python values *)

Module Py.

(** A Python [str] is a sequence of Unicode code points. *)
Abbreviation str := (list N).

(** An ASCII literal of the source as a [str]. *)
Definition lit (s : string) : str :=
  map N_of_ascii (list_ascii_of_string s).

Definition str_eqb (a b : str) : bool :=
  if list_eq_dec N.eq_dec a b then true else false.

(** The values [json.loads] produces, and those handed to [jsonify]:
    a [dict] is kept as its list of items, in insertion order. *)
Inductive val : Type :=
| VNone
| VBool (b : bool)
| VInt (z : Z)
| VFloat (f : spec_float)
| VStr (s : str)
| VList (l : list val)
| VDict (d : list (str * val)).

(** [bool(v)], the truth value that [not v] negates. *)
Definition truthy (v : val) : bool :=
  match v with
  | VNone => false
  | VBool b => b
  | VInt z => negb (z =? 0)%Z
  | VFloat (S754_zero _) => false
  | VFloat _ => true
  | VStr [] => false
  | VStr (_ :: _) => true
  | VList [] => false
  | VList (_ :: _) => true
  | VDict [] => false
  | VDict (_ :: _) => true
  end.

(** [isinstance(v, str)] *)
Definition is_str (v : val) : bool :=
  match v with VStr _ => true | _ => false end.

(** [type(v).__name__] *)
Definition type_name (v : val) : str :=
  match v with
  | VNone => lit "NoneType"
  | VBool _ => lit "bool"
  | VInt _ => lit "int"
  | VFloat _ => lit "float"
  | VStr _ => lit "str"
  | VList _ => lit "list"
  | VDict _ => lit "dict"
  end.

(** [d.get(k)] on the items of a dict: the value bound to [k], else [None]. *)
Fixpoint dict_get (d : list (str * val)) (k : str) : val :=
  match d with
  | [] => VNone
  | (k', v) :: r => if str_eqb k' k then v else dict_get r k
  end.

(** [str.isspace] on one code point (CPython's [_PyUnicode_IsWhitespace]). *)
Definition isspace (c : N) : bool :=
  ((9 <=? c) && (c <=? 13) || (28 <=? c) && (c <=? 32)
   || (c =? 133) || (c =? 160) || (c =? 5760)
   || (8192 <=? c) && (c <=? 8202)
   || (c =? 8232) || (c =? 8233) || (c =? 8239) || (c =? 8287)
   || (c =? 12288))%N.

(** [s.lstrip()], [s.rstrip()] and [s.strip()] with no argument. *)
Fixpoint lstrip (s : str) : str :=
  match s with
  | [] => []
  | c :: r => if isspace c then lstrip r else s
  end.

Definition rstrip (s : str) : str := rev (lstrip (rev s)).

Definition strip (s : str) : str := rstrip (lstrip s).

(** [sub in s] for strings. *)
Fixpoint prefix (p s : str) : bool :=
  match p, s with
  | [], _ => true
  | a :: p', b :: s' => (a =? b)%N && prefix p' s'
  | _ :: _, [] => false
  end.

Fixpoint contains (s sub : str) : bool :=
  prefix sub s || match s with [] => false | _ :: r => contains r sub end.

End Py.

(** ** Exceptions, events and the effect monad *)

(** Exceptions deriving from [Exception]: the upstream library's
    [APIError] (and its subclasses), or any other class, named. *)
Inductive exn : Type :=
| APIError (msg : Py.str)
| OtherError (cls : Py.str) (msg : Py.str).

(** [str(e)], what an f-string prints for [{e}]. *)
Definition exn_str (e : exn) : Py.str :=
  match e with
  | APIError msg => msg
  | OtherError _ msg => msg
  end.

(** [isinstance(e, APIError)], the test of [except APIError]. *)
Definition is_api_error (e : exn) : bool :=
  match e with APIError _ => true | OtherError _ _ => false end.

(** What a run does besides returning: entering the query executor,
    the outbound call of [model.generate_content], a line printed. *)
Inductive event : Type :=
| Invoked (query : Py.val)
| Outbound (query : Py.val) (system_instruction : Py.str) (tools : Py.val)
| Print (line : Py.str).

(** A computation yields its trace and either an exception or a value. *)
Definition M (A : Type) : Type := list event * (exn + A).

Definition ret {A} (a : A) : M A := ([], inr a).

Definition raise {A} (e : exn) : M A := ([], inl e).

Definition emit (ev : event) : M unit := ([ev], inr tt).

Definition lift {A} (r : exn + A) : M A := ([], r).

Definition bind {A B} (m : M A) (k : A -> M B) : M B :=
  match m with
  | (t, inl e) => (t, inl e)
  | (t, inr a) => let (t', r) := k a in (t ++ t', r)
  end.

(** [try: m  except Exception as e: h e] *)
Definition try_except {A} (m : M A) (h : exn -> M A) : M A :=
  match m with
  | (t, inl e) => let (t', r) := h e in (t ++ t', r)
  | (t, inr a) => (t, inr a)
  end.

Notation "x <- m ;; k" := (bind m (fun x => k))
  (at level 61, m at next level, right associativity).
Notation "m ;;; k" := (bind m (fun _ => k))
  (at level 61, right associativity).

Definition trace {A} (m : M A) : list event := fst m.
Definition outcome {A} (m : M A) : exn + A := snd m.

Definition is_invoked (ev : event) : bool :=
  match ev with Invoked _ => true | _ => false end.

Definition is_outbound (ev : event) : bool :=
  match ev with Outbound _ _ _ => true | _ => false end.

(** ** The upstream library, taken as given *)

(** The object [model.generate_content(...)] returns; its [text]
    property yields the text or raises. *)
Record GenerateContentResponse : Type := {
  text : exn + Py.str
}.

(** A [genai.GenerativeModel]: the outcome of
    [generate_content(query, system_instruction=..., tools=...)]. *)
Record GenerativeModel : Type := {
  generate_content :
    Py.val -> Py.str -> Py.val -> exn + GenerateContentResponse
}.

(** The module [google.generativeai]: [configure(api_key=k)] returns or
    raises, and so does [GenerativeModel(name)] once [k] is configured. *)
Record genai : Type := {
  configure : Py.str -> option exn;
  GenerativeModel_new : Py.str -> Py.str -> exn + GenerativeModel
}.

(** A Flask request, as far as the handlers look at it. *)
Record request : Type := {
  get_json : Py.val
}.

(** What a handler returns: [jsonify(body), status]. *)
Record response : Type := {
  body : Py.val;
  status : Z
}.

Definition jsonify (d : list (Py.str * Py.val)) (code : Z) : response :=
  {| body := Py.VDict d; status := code |}.

(** ** The program *)

Import Py.

(** *** Configuration and initialisation (module level) *)

Definition MODEL_TO_USE : str := lit "gemini-2.5-flash".

(** The module's globals once it is loaded. *)
Record globals : Type := {
  API_KEY : option str;
  model : option GenerativeModel
}.

(** [bool(API_KEY)] for the result of [os.environ.get]. *)
Definition key_present (k : option str) : bool :=
  match k with
  | Some (_ :: _) => true
  | _ => false
  end.

(** [not model] is false for a [GenerativeModel] and true for [None]. *)
Definition usable (g : globals) : bool :=
  match model g with Some _ => true | None => false end.

(** Lines 10 to 31: read the key, warn when it is missing, configure the
    library and build the model, falling back to [None]. *)
Definition startup (lib : genai) (environ_key : option str)
  : list event * globals :=
  let key := environ_key in
  let warn :=
    if negb (key_present key)
    then [Print (lit "FATAL: GOOGLE_API_KEY environment variable not found. The application cannot start.")]
    else [] in
  let failed (e : exn) :=
    (warn ++ [Print (lit "ERROR: Failed to configure Google Generative AI: " ++ exn_str e)],
     {| API_KEY := key; model := None |}) in
  match key with
  | Some (c :: k) =>
      match configure lib (c :: k) with
      | Some e => failed e
      | None =>
          match GenerativeModel_new lib (c :: k) MODEL_TO_USE with
          | inl e => failed e
          | inr m => (warn, {| API_KEY := key; model := Some m |})
          end
      end
  | _ => (warn, {| API_KEY := key; model := None |})
  end.

(** *** Core LLM logic *)

Definition system_prompt : str :=
  lit "You are Budget Buddy " ++ [8212%N] ++ lit " the voice of financial reason. "
  ++ lit "Your job is to help the user make smarter spending decisions. "
  ++ lit "Suggest at least one cheaper or free alternative found via Google Search. "
  ++ lit "Briefly explain why your choice is smarter. "
  ++ lit "Keep it clever, casual, and concise " ++ [8212%N] ++ lit " no lectures. "
  ++ lit "If it" ++ [8217%N] ++ lit "s already a good deal, say so with a friendly remark.".

(** [[{"google_search": {}}]] *)
Definition tools : val := VList [VDict [(lit "google_search", VDict [])]].

Definition execute_budget_buddy (g : globals) (query : val) : M str :=
  emit (Invoked query) ;;;
  match model g with
  | None =>
      raise (OtherError (lit "Exception")
               (lit "AI model failed to initialize due to missing or invalid API key."))
  | Some m =>
      emit (Outbound query system_prompt tools) ;;;
      response <- lift (generate_content m query system_prompt tools) ;;
      lift (text response)
  end.

(** *** Health check route: [GET /check] *)

Definition check (g : globals) : M response :=
  let status_code := 200%Z in
  let '(status_code, message) :=
    if negb (usable g)
    then (503%Z, lit "backend is running, but AI model failed to initialize.")
    else (status_code, lit "backend is running") in
  ret (jsonify
         [(lit "status", VStr (if (status_code =? 200)%Z then lit "ok" else lit "error"));
          (lit "message", VStr message);
          (lit "model", VStr MODEL_TO_USE)]
         status_code).

(** *** Main API route: [POST /api/execute] *)

(** The double-quote character inside a literal. *)
Definition dquote : str := [34%N].

(** [data.get('query')]: only a dict has the method. *)
Definition get (data : val) (k : str) : M val :=
  match data with
  | VDict d => ret (dict_get d k)
  | _ =>
      raise (OtherError (lit "AttributeError")
               (lit "'" ++ type_name data ++ lit "' object has no attribute 'get'"))
  end.

(** The characters of a [str] value (used where [isinstance] has passed). *)
Definition str_of (v : val) : str :=
  match v with VStr s => s | _ => [] end.

(** [not query or not isinstance(query, str) or not query.strip()] *)
Definition query_rejected (query : val) : bool :=
  negb (truthy query) || negb (is_str query)
  || negb (truthy (VStr (strip (str_of query)))).

Definition execute (g : globals) (req : request) : M response :=
  if negb (usable g) then
    ret (jsonify [(lit "error", VStr (lit "AI service not initialized. Check API key configuration."))] 503)
  else
    let data := get_json req in
    if negb (truthy data) then
      ret (jsonify [(lit "error", VStr (lit "Invalid or missing JSON payload."))] 400)
    else
      query <- get data (lit "query") ;;
      if query_rejected query then
        ret (jsonify [(lit "error", VStr (lit "Missing or empty " ++ dquote ++ lit "query" ++ dquote ++ lit " field in the request."))] 400)
      else
        try_except
          (result <- execute_budget_buddy g query ;;
           ret (jsonify [(lit "success", VBool true); (lit "result", VStr result)] 200))
          (fun e =>
             if is_api_error e then
               emit (Print (lit "Gemini API Error: " ++ exn_str e)) ;;;
               ret (jsonify [(lit "error", VStr (lit "AI Service Unavailable or request error: " ++ exn_str e))] 503)
             else
               emit (Print (lit "Internal Server Error: " ++ exn_str e)) ;;;
               ret (jsonify [(lit "error", VStr (lit "An unexpected internal server error occurred."))] 500)).



(** ** Vocabulary of the specification *)

(** The remote call together with the extraction of its text, lines 61
    to 66: what the upstream returns for [query], or the error raised. *)
Definition upstream_call (m : GenerativeModel) (query : val) : exn + str :=
  match generate_content m query system_prompt tools with
  | inl e => inl e
  | inr r => text r
  end.

(** The bodies [{error: msg}], [{success: true, result: t}] and the one
    of the health check. *)
Definition error_response (msg : str) (code : Z) : response :=
  jsonify [(lit "error", VStr msg)] code.

Definition success_response (t : str) : response :=
  jsonify [(lit "success", VBool true); (lit "result", VStr t)] 200.

Definition check_response (st msg : str) (code : Z) : response :=
  jsonify [(lit "status", VStr st); (lit "message", VStr msg);
           (lit "model", VStr (lit "gemini-2.5-flash"))] code.

Definition not_initialized : response :=
  error_response (lit "AI service not initialized. Check API key configuration.") 503.

Definition invalid_payload : response :=
  error_response (lit "Invalid or missing JSON payload.") 400.

Definition missing_query : response :=
  error_response
    (lit "Missing or empty " ++ dquote ++ lit "query" ++ dquote
     ++ lit " field in the request.") 400.

Definition upstream_unavailable (detail : str) : response :=
  error_response (lit "AI Service Unavailable or request error: " ++ detail) 503.

Definition internal_error : response :=
  error_response (lit "An unexpected internal server error occurred.") 500.

Definition check_ok : response :=
  check_response (lit "ok") (lit "backend is running") 200.

Definition check_failed : response :=
  check_response (lit "error")
    (lit "backend is running, but AI model failed to initialize.") 503.


(** In the words of the specification: the field [query] is missing, or
    is not a string, or is a string that is empty or all whitespace.
    (A missing field and a [null] one both read as [None].) *)
Definition blank_query (query : val) : bool :=
  match query with
  | VStr q => forallb isspace q
  | _ => true
  end.

(** The query executor was entered, resp. the network was reached,
    during a run. *)
Definition invoked {A} (m : M A) : bool := existsb is_invoked (trace m).

Definition called_out {A} (m : M A) : bool := existsb is_outbound (trace m).

(** The entry [k] of a response body. *)
Definition field (r : response) (k : str) : val :=
  match body r with
  | VDict d => dict_get d k
  | _ => VNone
  end.

(** The events that hand the query on: entering the executor and the
    outbound call. *)
Definition forwards (ev : event) : bool := is_invoked ev || is_outbound ev.

(** The five ways through [execute]. *)
Inductive execute_path (g : globals) (req : request) : Prop :=
| path_uninitialized :
    model g = None ->
    execute g req = ([], inr not_initialized) ->
    execute_path g req
| path_invalid_payload (m : GenerativeModel) :
    model g = Some m -> truthy (get_json req) = false ->
    execute g req = ([], inr invalid_payload) ->
    execute_path g req
| path_not_dict (m : GenerativeModel) (e : exn) :
    model g = Some m -> truthy (get_json req) = true ->
    (forall d, get_json req <> VDict d) ->
    execute g req = ([], inl e) ->
    execute_path g req
| path_rejected (m : GenerativeModel) (d : list (str * val)) :
    model g = Some m -> get_json req = VDict d -> d <> [] ->
    query_rejected (dict_get d (lit "query")) = true ->
    execute g req = ([], inr missing_query) ->
    execute_path g req
| path_accepted (m : GenerativeModel) (d : list (str * val)) (r : response)
    (log : list event) :
    model g = Some m -> get_json req = VDict d ->
    query_rejected (dict_get d (lit "query")) = false ->
    execute g req =
      (Invoked (dict_get d (lit "query"))
       :: Outbound (dict_get d (lit "query")) system_prompt tools :: log,
       inr r) ->
    execute_path g req.

(** The lines a run prints. *)
Definition is_print (ev : event) : bool :=
  match ev with Print _ => true | _ => false end.

Definition printed {A} (m : M A) : list event := filter is_print (trace m).

(** Some character of [q] is not whitespace. *)
Definition has_nonspace (q : str) : bool :=
  existsb (fun c => negb (isspace c)) q.

(** The values that are false in a condition: [None], [False], [0],
    [0.0] and [-0.0], and the empty string, list and dict. *)
Definition falsy_values : list val :=
  [VNone; VBool false; VInt 0; VFloat (S754_zero false);
   VFloat (S754_zero true); VStr []; VList []; VDict []].

(** Sample collaborators for concrete runs. *)
Module Sample.

(** An upstream that answers every query with the same text. *)
Definition answering (t : str) : GenerativeModel :=
  {| generate_content := fun _ _ _ => inr {| text := inr t |} |}.

(** An upstream whose call raises [e]. *)
Definition failing (e : exn) : GenerativeModel :=
  {| generate_content := fun _ _ _ => inl e |}.

(** A library that accepts every key and hands out [m]. *)
Definition lib_ok (m : GenerativeModel) : genai :=
  {| configure := fun _ => None; GenerativeModel_new := fun _ _ => inr m |}.

Definition ready (m : GenerativeModel) : globals :=
  {| API_KEY := Some (lit "AIza-sample"); model := Some m |}.

Definition unready : globals :=
  {| API_KEY := None; model := None |}.

Definition post (data : val) : request := {| get_json := data |}.

End Sample.

(** Libraries whose set-up fails, for concrete runs of the start-up. *)
Module SampleLib.

(** [configure] raises [e]. *)
Definition refusing (e : exn) : genai :=
  {| configure := fun _ => Some e;
     GenerativeModel_new := fun _ _ => inr (Sample.answering (lit "unused")) |}.

(** [configure] returns, [GenerativeModel(...)] raises [e]. *)
Definition unbuildable (e : exn) : genai :=
  {| configure := fun _ => None; GenerativeModel_new := fun _ _ => inl e |}.

End SampleLib.

(** ** Facts about strings and values *)

Section StringFacts.

Lemma str_eqb_eq (a b : str) : str_eqb a b = true <-> a = b.
Proof.
  unfold str_eqb. destruct (list_eq_dec N.eq_dec a b); split; congruence.
Qed.

Lemma truthy_str_nil (s : str) : truthy (VStr s) = false <-> s = [].
Proof. destruct s; simpl; split; congruence. Qed.

Lemma lstrip_head (s r : str) (c : N) :
  lstrip s = c :: r -> isspace c = false.
Proof.
  induction s as [|a s IH]; simpl; [discriminate|].
  destruct (isspace a) eqn:Ha; [exact IH|].
  intros E; injection E as -> _; exact Ha.
Qed.

Lemma lstrip_nil_iff (s : str) :
  lstrip s = [] <-> forallb isspace s = true.
Proof.
  induction s as [|a s IH]; simpl; [tauto|].
  destruct (isspace a); simpl; [exact IH|].
  split; discriminate.
Qed.

Lemma forallb_rev {A} (f : A -> bool) (l : list A) :
  forallb f (rev l) = forallb f l.
Proof.
  induction l as [|a l IH]; simpl; [reflexivity|].
  rewrite forallb_app, IH; simpl.
  rewrite andb_true_r. apply andb_comm.
Qed.

Lemma rev_nil_iff {A} (l : list A) : rev l = [] <-> l = [].
Proof.
  split; intros H.
  - rewrite <- (rev_involutive l), H. reflexivity.
  - now subst.
Qed.

(** [s.strip()] is empty exactly when [s] is empty or all whitespace. *)
Lemma strip_nil_iff (s : str) :
  strip s = [] <-> forallb isspace s = true.
Proof.
  unfold strip, rstrip.
  rewrite rev_nil_iff, lstrip_nil_iff, forallb_rev.
  rewrite <- (lstrip_nil_iff s).
  split; intros H.
  - destruct (lstrip s) as [|c r] eqn:E; [reflexivity|].
    apply lstrip_head in E. simpl in H. rewrite E in H. discriminate.
  - now rewrite H.
Qed.

(** The test of the source agrees with the words of the specification. *)
Lemma query_rejected_blank (query : val) :
  query_rejected query = blank_query query.
Proof.
  unfold query_rejected.
  destruct query as [| b | z | f | q | l | d]; simpl is_str; simpl blank_query;
    simpl negb at 2; rewrite ?orb_true_r; try reflexivity.
  rewrite orb_false_r. simpl str_of.
  destruct (forallb isspace q) eqn:F.
  - apply strip_nil_iff in F. rewrite F. simpl. apply orb_true_r.
  - destruct q as [|c q]; [discriminate|].
    destruct (strip (c :: q)) eqn:S.
    + apply strip_nil_iff in S. congruence.
    + reflexivity.
Qed.

Lemma prefix_refl (s : str) : prefix s s = true.
Proof.
  induction s as [|a s IH]; simpl; [reflexivity|].
  now rewrite N.eqb_refl.
Qed.

Lemma contains_app_r (p s : str) : contains (p ++ s) s = true.
Proof.
  induction p as [|a p IH].
  - destruct s; simpl; [reflexivity|].
    now rewrite N.eqb_refl, prefix_refl.
  - change (prefix s ((a :: p) ++ s) || contains (p ++ s) s = true).
    rewrite IH. apply orb_true_r.
Qed.

End StringFacts.

(** ** Runs of the executor and of the handlers *)

Section Runs.

Variable g : globals.

(** With a handle, the executor makes exactly one outbound call with the
    query it was given and returns what the upstream returns. *)
Lemma execute_budget_buddy_some (m : GenerativeModel) (query : val) :
  model g = Some m ->
  execute_budget_buddy g query =
    ([Invoked query; Outbound query system_prompt tools],
     upstream_call m query).
Proof.
  intros Hm. unfold execute_budget_buddy, upstream_call. rewrite Hm.
  unfold bind, emit, lift.
  destruct (generate_content m query system_prompt tools) as [e | r];
    [reflexivity|].
  destruct (text r); reflexivity.
Qed.

Lemma execute_budget_buddy_none (query : val) :
  model g = None ->
  execute_budget_buddy g query =
    ([Invoked query],
     inl (OtherError (lit "Exception")
            (lit "AI model failed to initialize due to missing or invalid API key."))).
Proof.
  intros Hm. unfold execute_budget_buddy. rewrite Hm. reflexivity.
Qed.

Lemma check_some (m : GenerativeModel) :
  model g = Some m -> check g = ([], inr check_ok).
Proof. intros Hm. unfold check, usable. rewrite Hm. reflexivity. Qed.

Lemma check_none :
  model g = None -> check g = ([], inr check_failed).
Proof. intros Hm. unfold check, usable. rewrite Hm. reflexivity. Qed.

Lemma execute_none (req : request) :
  model g = None -> execute g req = ([], inr not_initialized).
Proof. intros Hm. unfold execute, usable. rewrite Hm. reflexivity. Qed.

Lemma execute_falsy (m : GenerativeModel) (req : request) :
  model g = Some m -> truthy (get_json req) = false ->
  execute g req = ([], inr invalid_payload).
Proof.
  intros Hm Hd. unfold execute, usable. rewrite Hm, Hd. reflexivity.
Qed.

(** A payload that is true but is no dict: [data.get] raises, before
    the [try]. *)
Lemma execute_not_dict (m : GenerativeModel) (req : request) :
  model g = Some m -> truthy (get_json req) = true ->
  (forall d, get_json req <> VDict d) ->
  execute g req =
    ([], inl (OtherError (lit "AttributeError")
                (lit "'" ++ type_name (get_json req)
                 ++ lit "' object has no attribute 'get'"))).
Proof.
  intros Hm Hd Hn. unfold execute, usable. rewrite Hm, Hd.
  destruct (get_json req); try reflexivity.
  now destruct (Hn d).
Qed.

Lemma execute_rejected (m : GenerativeModel) (req : request)
    (d : list (str * val)) :
  model g = Some m -> get_json req = VDict d -> d <> [] ->
  query_rejected (dict_get d (lit "query")) = true ->
  execute g req = ([], inr missing_query).
Proof.
  intros Hm Hd Hne Hq. unfold execute, usable. rewrite Hm, Hd.
  assert (Ht : truthy (VDict d) = true)
    by (destruct d; [now destruct Hne | reflexivity]).
  rewrite Ht. unfold get.
  remember (dict_get d (lit "query")) as query.
  unfold bind, ret. cbv iota beta. rewrite Hq. reflexivity.
Qed.

(** The handler's answer to what the executor brought back. *)
Lemma execute_accepted (m : GenerativeModel) (req : request)
    (d : list (str * val)) :
  model g = Some m -> get_json req = VDict d ->
  query_rejected (dict_get d (lit "query")) = false ->
  execute g req =
    let query := dict_get d (lit "query") in
    let calls := [Invoked query; Outbound query system_prompt tools] in
    match upstream_call m query with
    | inr t => (calls, inr (success_response t))
    | inl e =>
        if is_api_error e
        then (calls ++ [Print (lit "Gemini API Error: " ++ exn_str e)],
              inr (upstream_unavailable (exn_str e)))
        else (calls ++ [Print (lit "Internal Server Error: " ++ exn_str e)],
              inr internal_error)
    end.
Proof.
  intros Hm Hd Hq. unfold execute, usable. rewrite Hm, Hd.
  assert (Ht : truthy (VDict d) = true)
    by (destruct d; [discriminate Hq | reflexivity]).
  rewrite Ht. unfold get.
  remember (dict_get d (lit "query")) as query.
  change (negb true) with false. cbv iota.
  unfold bind at 1. unfold ret at 1. cbv iota beta.
  rewrite Hq. cbv iota zeta.
  rewrite (execute_budget_buddy_some m query Hm).
  destruct (upstream_call m query) as [e | t].
  - unfold bind at 1, try_except. destruct (is_api_error e); reflexivity.
  - reflexivity.
Qed.

End Runs.

Lemma execute_paths (g : globals) (req : request) : execute_path g req.
Proof.
  destruct (model g) as [m|] eqn:Hm.
  2: { now apply path_uninitialized; [|apply execute_none]. }
  destruct (truthy (get_json req)) eqn:Ht.
  2: { now apply (path_invalid_payload g req m); [| |apply (execute_falsy g m)]. }
  assert (Hcase : (exists d, get_json req = VDict d)
                  \/ (forall d, get_json req <> VDict d)).
  { destruct (get_json req); try (right; discriminate). left; eauto. }
  destruct Hcase as [[d Hd] | Hn].
  2: { eapply (path_not_dict g req m); eauto.
       now apply (execute_not_dict g m). }
  destruct (query_rejected (dict_get d (lit "query"))) eqn:Hq.
  - assert (Hne : d <> []).
    { intros ->. rewrite Hd in Ht. discriminate Ht. }
    apply (path_rejected g req m d); auto.
    apply (execute_rejected g m req d); auto.
  - pose proof (execute_accepted g m req d Hm Hd Hq) as E. cbv zeta in E.
    destruct (upstream_call m (dict_get d (lit "query"))) as [e | t].
    + destruct (is_api_error e); cbn [app] in E;
        eapply (path_accepted g req m d); eauto.
    + eapply (path_accepted g req m d); eauto.
Qed.


(** *** Start-up *)

Lemma startup_keeps_key (lib : genai) (k : option str) :
  API_KEY (snd (startup lib k)) = k.
Proof.
  unfold startup. destruct k as [[|c k]|]; try reflexivity.
  destruct (configure lib (c :: k)); [reflexivity|].
  destruct (GenerativeModel_new lib (c :: k) MODEL_TO_USE); reflexivity.
Qed.

(** Without a key there is no handle, whatever the library would do. *)
Lemma startup_without_key (lib : genai) (k : option str) :
  key_present k = false -> model (snd (startup lib k)) = None.
Proof.
  unfold startup. destruct k as [[|c k]|]; try reflexivity. discriminate.
Qed.




(** ** The properties of the specification *)

(** C1. A request whose JSON body has a [query] that is a string with
    some non-whitespace character, served with a usable handle whose
    upstream call succeeds, is answered with status 200 and the body
    [{success: true, result: t}], where [t] is the text of the upstream
    response, unchanged. *)
Theorem execute_returns_upstream_text
    (g : globals) (m : GenerativeModel) (req : request)
    (d : list (str * val)) (q t : str) :
  model g = Some m ->
  get_json req = VDict d ->
  dict_get d (lit "query") = VStr q ->
  forallb isspace q = false ->
  upstream_call m (VStr q) = inr t ->
  outcome (execute g req) =
    inr {| body := VDict [(lit "success", VBool true); (lit "result", VStr t)];
           status := 200 |}.
Proof.
  intros Hm Hd Hq Hns Hup.
  assert (Hacc : query_rejected (dict_get d (lit "query")) = false).
  { rewrite query_rejected_blank, Hq. exact Hns. }
  rewrite (execute_accepted g m req d Hm Hd Hacc). cbv zeta.
  rewrite Hq, Hup. reflexivity.
Qed.

Lemma execute_returns_upstream_text_witness :
  outcome
    (execute (Sample.ready (Sample.answering (lit "Try a $20 mat instead.")))
       (Sample.post
          (VDict [(lit "query", VStr (lit "Should I buy a $150 yoga mat?"))])))
  = inr {| body := VDict [(lit "success", VBool true);
                          (lit "result", VStr (lit "Try a $20 mat instead."))];
           status := 200 |}.
Proof.
  apply (execute_returns_upstream_text
           (Sample.ready (Sample.answering (lit "Try a $20 mat instead.")))
           (Sample.answering (lit "Try a $20 mat instead."))
           (Sample.post
              (VDict [(lit "query", VStr (lit "Should I buy a $150 yoga mat?"))]))
           [(lit "query", VStr (lit "Should I buy a $150 yoga mat?"))]
           (lit "Should I buy a $150 yoga mat?")
           (lit "Try a $20 mat instead."));
    reflexivity.
Defined.

(** C2. On a request that reaches the call of the query executor: if the
    upstream call raises the library's [APIError], the answer is 503 and
    its error message contains the detail of that error; if it raises
    anything else, the answer is 500 with the fixed message
    'An unexpected internal server error occurred.', the same for every
    such exception. *)
Theorem execute_maps_upstream_errors
    (g : globals) (m : GenerativeModel) (req : request) (query : val)
    (e : exn) :
  model g = Some m ->
  In (Invoked query) (trace (execute g req)) ->
  upstream_call m query = inl e ->
  (is_api_error e = true ->
     outcome (execute g req) =
       inr (error_response
              (lit "AI Service Unavailable or request error: " ++ exn_str e) 503)
     /\ contains (lit "AI Service Unavailable or request error: " ++ exn_str e)
          (exn_str e) = true)
  /\ (is_api_error e = false ->
        outcome (execute g req) =
          inr (error_response
                 (lit "An unexpected internal server error occurred.") 500)).
Proof.
  intros Hm Hin Hup.
  destruct (execute_paths g req) as [Hn E | m' Hm' Ht E | m' e' Hm' Ht Hn E
                                     | m' d Hm' Hd Hne Hq E
                                     | m' d r log Hm' Hd Hq _];
    try (rewrite E in Hin; now destruct Hin).
  assert (m' = m) as -> by congruence.
  pose proof (execute_accepted g m req d Hm Hd Hq) as E. cbv zeta in E.
  assert (Hsame : query = dict_get d (lit "query")).
  { rewrite E in Hin.
    destruct (upstream_call m (dict_get d (lit "query"))) as [e0 | t0];
      [destruct (is_api_error e0)|]; simpl in Hin;
      repeat (destruct Hin as [Hin | Hin]; try discriminate Hin;
              try (injection Hin as <-; reflexivity));
      now destruct Hin. }
  subst query. rewrite Hup in E. rewrite E. split; intros Ha; rewrite Ha.
  - split; [reflexivity | apply contains_app_r].
  - reflexivity.
Qed.

Lemma execute_maps_upstream_errors_witness :
  (outcome
     (execute (Sample.ready (Sample.failing (APIError (lit "quota exceeded"))))
        (Sample.post (VDict [(lit "query", VStr (lit "new phone?"))])))
   = inr (error_response
            (lit "AI Service Unavailable or request error: "
             ++ exn_str (APIError (lit "quota exceeded"))) 503)
   /\ contains (lit "AI Service Unavailable or request error: "
                ++ exn_str (APIError (lit "quota exceeded")))
        (exn_str (APIError (lit "quota exceeded"))) = true)
  /\ outcome
       (execute
          (Sample.ready
             (Sample.failing (OtherError (lit "TypeError") (lit "bad argument"))))
          (Sample.post (VDict [(lit "query", VStr (lit "new phone?"))])))
     = inr (error_response
              (lit "An unexpected internal server error occurred.") 500).
Proof.
  split.
  - apply (execute_maps_upstream_errors
             (Sample.ready (Sample.failing (APIError (lit "quota exceeded"))))
             (Sample.failing (APIError (lit "quota exceeded")))
             (Sample.post (VDict [(lit "query", VStr (lit "new phone?"))]))
             (VStr (lit "new phone?"))
             (APIError (lit "quota exceeded")));
      [reflexivity | left; reflexivity | reflexivity | reflexivity].
  - apply (execute_maps_upstream_errors
             (Sample.ready
                (Sample.failing (OtherError (lit "TypeError") (lit "bad argument"))))
             (Sample.failing (OtherError (lit "TypeError") (lit "bad argument")))
             (Sample.post (VDict [(lit "query", VStr (lit "new phone?"))]))
             (VStr (lit "new phone?"))
             (OtherError (lit "TypeError") (lit "bad argument")));
      [reflexivity | left; reflexivity | reflexivity | reflexivity].
Defined.

(** C3. With no handle ([model] is [None]) every request to
    [/api/execute], whatever its body, is answered 503 with
    [{error: 'AI service not initialized. Check API key configuration.'}],
    and the query executor is not entered. *)
Theorem execute_without_model (g : globals) (req : request) :
  model g = None ->
  outcome (execute g req) =
    inr {| body := VDict [(lit "error",
                           VStr (lit "AI service not initialized. Check API key configuration."))];
           status := 503 |}
  /\ invoked (execute g req) = false.
Proof.
  intros Hm. rewrite (execute_none g req Hm). split; reflexivity.
Qed.

Lemma execute_without_model_witness :
  outcome (execute Sample.unready (Sample.post (VList [VInt 1]))) =
    inr {| body := VDict [(lit "error",
                           VStr (lit "AI service not initialized. Check API key configuration."))];
           status := 503 |}
  /\ invoked (execute Sample.unready (Sample.post (VList [VInt 1]))) = false.
Proof.
  apply (execute_without_model Sample.unready (Sample.post (VList [VInt 1]))).
  reflexivity.
Defined.

(** C4. [GET /check] answers 200 with
    [{status: 'ok', message: 'backend is running', model: ...}] when the
    handle is usable and 503 with [{status: 'error', message: 'backend
    is running, but AI model failed to initialize.', model: ...}] when
    it is not; either way the body names the model 'gemini-2.5-flash',
    and the query executor is not entered. *)
Theorem check_reports_model_state (g : globals) :
  outcome (check g) =
    inr (if usable g
         then {| body := VDict [(lit "status", VStr (lit "ok"));
                                (lit "message", VStr (lit "backend is running"));
                                (lit "model", VStr MODEL_TO_USE)];
                 status := 200 |}
         else {| body := VDict [(lit "status", VStr (lit "error"));
                                (lit "message",
                                 VStr (lit "backend is running, but AI model failed to initialize."));
                                (lit "model", VStr MODEL_TO_USE)];
                 status := 503 |})
  /\ (exists r, outcome (check g) = inr r
        /\ field r (lit "model") = VStr (lit "gemini-2.5-flash"))
  /\ invoked (check g) = false.
Proof.
  unfold usable. destruct (model g) as [m|] eqn:Hm.
  - rewrite (check_some g m Hm). repeat split. now exists check_ok.
  - rewrite (check_none g Hm). repeat split. now exists check_failed.
Qed.

(** C5, as amended. With a usable handle, a body that is a non-empty
    JSON object whose [query] is missing, not a string, empty or all
    whitespace is answered 400 with
    [{error: 'Missing or empty "query" field in the request.'}], and the
    query executor is not entered. *)
Theorem execute_rejects_blank_query
    (g : globals) (req : request) (d : list (str * val)) :
  usable g = true ->
  get_json req = VDict d ->
  d <> [] ->
  blank_query (dict_get d (lit "query")) = true ->
  outcome (execute g req) =
    inr {| body := VDict [(lit "error",
                           VStr (lit "Missing or empty " ++ dquote ++ lit "query"
                                 ++ dquote ++ lit " field in the request."))];
           status := 400 |}
  /\ invoked (execute g req) = false.
Proof.
  intros Hu Hd Hne Hb. unfold usable in Hu.
  destruct (model g) as [m|] eqn:Hm; [|discriminate].
  rewrite <- query_rejected_blank in Hb.
  rewrite (execute_rejected g m req d Hm Hd Hne Hb). split; reflexivity.
Qed.

Lemma execute_rejects_blank_query_witness :
  outcome
    (execute (Sample.ready (Sample.answering (lit "fine")))
       (Sample.post (VDict [(lit "query", VStr (lit "   "))]))) =
    inr {| body := VDict [(lit "error",
                           VStr (lit "Missing or empty " ++ dquote ++ lit "query"
                                 ++ dquote ++ lit " field in the request."))];
           status := 400 |}
  /\ invoked
       (execute (Sample.ready (Sample.answering (lit "fine")))
          (Sample.post (VDict [(lit "query", VStr (lit "   "))]))) = false.
Proof.
  apply (execute_rejects_blank_query
           (Sample.ready (Sample.answering (lit "fine")))
           (Sample.post (VDict [(lit "query", VStr (lit "   "))]))
           [(lit "query", VStr (lit "   "))]);
    [reflexivity | reflexivity | discriminate | reflexivity].
Defined.

(** C5, as stated, fails on the empty object: its [query] is missing,
    yet the answer is the one for an invalid payload. *)
Lemma empty_object_not_missing_query :
  let g := Sample.ready (Sample.answering (lit "fine")) in
  let req := Sample.post (VDict []) in
  usable g = true
  /\ get_json req = VDict []
  /\ blank_query (dict_get [] (lit "query")) = true
  /\ outcome (execute g req) <> inr missing_query.
Proof.
  cbv zeta. repeat split. vm_compute. discriminate.
Qed.

(** C6, as amended. With a usable handle, the body [{}] is answered 400
    with [{error: 'Invalid or missing JSON payload.'}]: an empty object
    is false, and is turned away before [query] is looked up. *)
Theorem execute_empty_object (g : globals) (req : request) :
  usable g = true ->
  get_json req = VDict [] ->
  outcome (execute g req) =
    inr {| body := VDict [(lit "error",
                           VStr (lit "Invalid or missing JSON payload."))];
           status := 400 |}.
Proof.
  intros Hu Hd. unfold usable in Hu.
  destruct (model g) as [m|] eqn:Hm; [|discriminate].
  rewrite (execute_falsy g m req Hm); [reflexivity|].
  now rewrite Hd.
Qed.

Lemma execute_empty_object_witness :
  outcome
    (execute (Sample.ready (Sample.answering (lit "fine")))
       (Sample.post (VDict []))) =
    inr {| body := VDict [(lit "error",
                           VStr (lit "Invalid or missing JSON payload."))];
           status := 400 |}.
Proof.
  apply (execute_empty_object
           (Sample.ready (Sample.answering (lit "fine")))
           (Sample.post (VDict [])));
    reflexivity.
Defined.

(** C6, as stated, fails: the answer to [{}] is not the one about the
    [query] field. *)
Lemma empty_object_answer :
  let g := Sample.ready (Sample.answering (lit "fine")) in
  usable g = true
  /\ outcome (execute g (Sample.post (VDict []))) = inr invalid_payload
  /\ outcome (execute g (Sample.post (VDict []))) <>
       inr {| body := VDict [(lit "error",
                              VStr (lit "Missing or empty " ++ dquote
                                    ++ lit "query" ++ dquote
                                    ++ lit " field in the request."))];
              status := 400 |}.
Proof.
  cbv zeta. repeat split. vm_compute. discriminate.
Qed.

(** C7. Without a handle the query executor raises at once, a plain
    [Exception] saying that the model failed to initialize, and makes
    no outbound call. With a handle, an error raised by the remote call
    comes out of the executor unchanged, after exactly one outbound
    call and with no result. *)
Theorem execute_budget_buddy_failures (g : globals) (query : val) :
  (model g = None ->
     outcome (execute_budget_buddy g query) =
       inl (OtherError (lit "Exception")
              (lit "AI model failed to initialize due to missing or invalid API key."))
     /\ called_out (execute_budget_buddy g query) = false)
  /\ (forall m e,
        model g = Some m ->
        upstream_call m query = inl e ->
        outcome (execute_budget_buddy g query) = inl e
        /\ filter is_outbound (trace (execute_budget_buddy g query)) =
             [Outbound query system_prompt tools]).
Proof.
  split.
  - intros Hm. rewrite (execute_budget_buddy_none g query Hm).
    split; reflexivity.
  - intros m e Hm Hup. rewrite (execute_budget_buddy_some g m query Hm).
    split; [exact Hup | reflexivity].
Qed.

Lemma execute_budget_buddy_failures_witness :
  (outcome (execute_budget_buddy Sample.unready (VStr (lit "new phone?"))) =
     inl (OtherError (lit "Exception")
            (lit "AI model failed to initialize due to missing or invalid API key."))
   /\ called_out (execute_budget_buddy Sample.unready (VStr (lit "new phone?")))
      = false)
  /\ (outcome
        (execute_budget_buddy
           (Sample.ready (Sample.failing (APIError (lit "quota exceeded"))))
           (VStr (lit "new phone?")))
      = inl (APIError (lit "quota exceeded"))
      /\ filter is_outbound
           (trace
              (execute_budget_buddy
                 (Sample.ready (Sample.failing (APIError (lit "quota exceeded"))))
                 (VStr (lit "new phone?"))))
         = [Outbound (VStr (lit "new phone?")) system_prompt tools]).
Proof.
  split.
  - apply (execute_budget_buddy_failures Sample.unready
             (VStr (lit "new phone?"))).
    reflexivity.
  - apply (proj2
             (execute_budget_buddy_failures
                (Sample.ready (Sample.failing (APIError (lit "quota exceeded"))))
                (VStr (lit "new phone?")))
             (Sample.failing (APIError (lit "quota exceeded")))
             (APIError (lit "quota exceeded")));
      reflexivity.
Defined.

(** C8, at the input where it fails. With a usable handle, the body
    [[1]] makes [data.get] raise [AttributeError] before the [try]; the
    exception leaves the handler and nothing is returned. *)
Theorem execute_array_body_raises (g : globals) (req : request) :
  usable g = true ->
  get_json req = VList [VInt 1] ->
  execute g req =
    ([], inl (OtherError (lit "AttributeError")
                (lit "'list' object has no attribute 'get'"))).
Proof.
  intros Hu Hd. unfold usable in Hu.
  destruct (model g) as [m|] eqn:Hm; [|discriminate].
  rewrite (execute_not_dict g m req Hm); rewrite Hd;
    [reflexivity | reflexivity | discriminate].
Qed.

Lemma execute_array_body_raises_witness :
  execute (Sample.ready (Sample.answering (lit "fine")))
    (Sample.post (VList [VInt 1])) =
    ([], inl (OtherError (lit "AttributeError")
                (lit "'list' object has no attribute 'get'"))).
Proof.
  apply (execute_array_body_raises
           (Sample.ready (Sample.answering (lit "fine")))
           (Sample.post (VList [VInt 1])));
    reflexivity.
Defined.






(** ** Further properties of the handlers *)

Lemma falsy_values_spec (v : val) :
  truthy v = false <-> In v falsy_values.
Proof.
  unfold falsy_values. split.
  - destruct v as [| [] | z | f | [|c s] | [|x l] | [|kv d]];
      simpl; intros H; try discriminate H; auto 10.
    + destruct z; try discriminate H. auto 10.
    + destruct f as [[]| | |]; try discriminate H; auto 10.
  - intros H. simpl in H.
    repeat (destruct H as [<- | H]; [reflexivity|]). destruct H.
Qed.

Lemma has_nonspace_forallb (q : str) :
  has_nonspace q = negb (forallb isspace q).
Proof.
  unfold has_nonspace. induction q as [|c q IH]; simpl; [reflexivity|].
  rewrite IH. now destruct (isspace c).
Qed.

(** What the source's test lets through, in plain terms. *)
Lemma query_accepted_iff (query : val) :
  query_rejected query = false <->
  exists q, query = VStr q /\ has_nonspace q = true.
Proof.
  rewrite query_rejected_blank. split.
  - destruct query as [| b | z | f | q | l | d]; simpl; try discriminate.
    intros H. exists q. split; [reflexivity|].
    now rewrite has_nonspace_forallb, H.
  - intros (q & -> & H). simpl.
    rewrite has_nonspace_forallb in H. now destruct (forallb isspace q).
Qed.

(** The trace of a request that is let through. *)
Lemma execute_accepted_trace (g : globals) (m : GenerativeModel)
    (req : request) (d : list (str * val)) :
  model g = Some m -> get_json req = VDict d ->
  query_rejected (dict_get d (lit "query")) = false ->
  exists log,
    trace (execute g req) =
      Invoked (dict_get d (lit "query"))
      :: Outbound (dict_get d (lit "query")) system_prompt tools :: log
    /\ filter forwards log = [].
Proof.
  intros Hm Hd Hq.
  rewrite (execute_accepted g m req d Hm Hd Hq). cbv zeta.
  destruct (upstream_call m (dict_get d (lit "query"))) as [e | t];
    [destruct (is_api_error e)|]; eexists; split; reflexivity.
Qed.







(** X2. With a usable handle, the answer 400 'Invalid or missing JSON
    payload.' is given exactly to the payloads that are false in a
    condition: [None] (no body, or one that does not parse), [false],
    [0], [0.0], [-0.0], the empty string, [[]] and [{}]; nothing is
    printed or called for them. *)
Theorem execute_invalid_payload_iff (g : globals) (req : request) :
  usable g = true ->
  (outcome (execute g req) = inr invalid_payload <->
   In (get_json req) falsy_values)
  /\ (In (get_json req) falsy_values -> trace (execute g req) = []).
Proof.
  intros Hu. unfold usable in Hu.
  destruct (model g) as [m|] eqn:Hm; [|discriminate].
  rewrite <- falsy_values_spec. split; [split|].
  - intros Hr.
    destruct (truthy (get_json req)) eqn:Ht; [exfalso|reflexivity].
    destruct (execute_paths g req)
      as [Hn E | m' Hm' Ht' E | m' e' Hm' Ht' Hn E
          | m' d Hm' Hd Hne Hq E | m' d r log Hm' Hd Hq _];
      try congruence.
    + rewrite E in Hr. discriminate Hr.
    + rewrite E in Hr. discriminate Hr.
    + assert (m' = m) as -> by congruence.
      rewrite (execute_accepted g m req d Hm Hd Hq) in Hr. cbv zeta in Hr.
      destruct (upstream_call m (dict_get d (lit "query"))) as [e | t];
        [destruct (is_api_error e)|]; discriminate Hr.
  - intros Ht. now rewrite (execute_falsy g m req Hm Ht).
  - intros Ht. now rewrite (execute_falsy g m req Hm Ht).
Qed.

Lemma execute_invalid_payload_iff_witness :
  (outcome
     (execute (Sample.ready (Sample.answering (lit "fine")))
        (Sample.post VNone)) = inr invalid_payload <->
   In (get_json (Sample.post VNone)) falsy_values)
  /\ (In (get_json (Sample.post VNone)) falsy_values ->
      trace
        (execute (Sample.ready (Sample.answering (lit "fine")))
           (Sample.post VNone)) = []).
Proof.
  apply (execute_invalid_payload_iff
           (Sample.ready (Sample.answering (lit "fine")))
           (Sample.post VNone)).
  reflexivity.
Defined.

(** X3. The query executor is entered exactly when the handle is usable
    and the payload is a JSON object whose [query] is a string with at
    least one character that is not whitespace. *)
Theorem executor_entered_iff (g : globals) (req : request) :
  invoked (execute g req) = true <->
  usable g = true
  /\ exists d q, get_json req = VDict d
       /\ dict_get d (lit "query") = VStr q /\ has_nonspace q = true.
Proof.
  split.
  - intros Hi.
    destruct (execute_paths g req)
      as [Hm E | m Hm Ht E | m e' Hm Ht Hn E
          | m d Hm Hd Hne Hq E | m d r log Hm Hd Hq E];
      try (rewrite E in Hi; discriminate Hi).
    unfold usable. rewrite Hm. split; [reflexivity|].
    apply query_accepted_iff in Hq. destruct Hq as (q & Hq & Hns).
    now exists d, q.
  - intros (Hu & d & q & Hd & Hq & Hns). unfold usable in Hu.
    destruct (model g) as [m|] eqn:Hm; [|discriminate].
    assert (Hacc : query_rejected (dict_get d (lit "query")) = false).
    { apply query_accepted_iff. now exists q. }
    destruct (execute_accepted_trace g m req d Hm Hd Hacc) as (log & E & _).
    unfold invoked. rewrite E. reflexivity.
Qed.

(** X4. Of a JSON object the handler reads the field [query] and
    nothing else: two non-empty objects with the same [query] (or both
    without one) get the same answer, the same calls and the same log. *)
Theorem execute_reads_only_query
    (g : globals) (req1 req2 : request) (d1 d2 : list (str * val)) :
  get_json req1 = VDict d1 -> get_json req2 = VDict d2 ->
  d1 <> [] -> d2 <> [] ->
  dict_get d1 (lit "query") = dict_get d2 (lit "query") ->
  execute g req1 = execute g req2.
Proof.
  intros H1 H2 N1 N2 Hq.
  destruct (model g) as [m|] eqn:Hm.
  2: { now rewrite !execute_none. }
  destruct (query_rejected (dict_get d1 (lit "query"))) eqn:Hr.
  - rewrite (execute_rejected g m req1 d1 Hm H1 N1 Hr).
    rewrite Hq in Hr.
    now rewrite (execute_rejected g m req2 d2 Hm H2 N2 Hr).
  - rewrite (execute_accepted g m req1 d1 Hm H1 Hr).
    rewrite Hq in Hr.
    rewrite (execute_accepted g m req2 d2 Hm H2 Hr).
    now rewrite Hq.
Qed.

Lemma execute_reads_only_query_witness :
  execute (Sample.ready (Sample.answering (lit "fine")))
    (Sample.post (VDict [(lit "query", VStr (lit "new phone?"))])) =
  execute (Sample.ready (Sample.answering (lit "fine")))
    (Sample.post (VDict [(lit "user", VInt 7);
                         (lit "query", VStr (lit "new phone?"));
                         (lit "debug", VBool true)])).
Proof.
  apply (execute_reads_only_query
           (Sample.ready (Sample.answering (lit "fine")))
           (Sample.post (VDict [(lit "query", VStr (lit "new phone?"))]))
           (Sample.post (VDict [(lit "user", VInt 7);
                                (lit "query", VStr (lit "new phone?"));
                                (lit "debug", VBool true)]))
           [(lit "query", VStr (lit "new phone?"))]
           [(lit "user", VInt 7); (lit "query", VStr (lit "new phone?"));
            (lit "debug", VBool true)]);
    [reflexivity | reflexivity | discriminate | discriminate | reflexivity].
Defined.

(** X5. A request makes no outbound call or exactly one, never more: the
    calls of a run are either none, or one entry into the executor
    followed by one call of [generate_content] that carries the
    request's [query], the fixed persona and the [google_search] tool. *)
Theorem execute_calls_out_at_most_once (g : globals) (req : request) :
  filter forwards (trace (execute g req)) = []
  \/ exists d,
       get_json req = VDict d
       /\ filter forwards (trace (execute g req)) =
            [Invoked (dict_get d (lit "query"));
             Outbound (dict_get d (lit "query")) system_prompt
               (VList [VDict [(lit "google_search", VDict [])]])].
Proof.
  destruct (execute_paths g req)
    as [Hm E | m Hm Ht E | m e' Hm Ht Hn E
        | m d Hm Hd Hne Hq E | m d r log Hm Hd Hq _];
    try (left; rewrite E; reflexivity).
  right. exists d. split; [exact Hd|].
  destruct (execute_accepted_trace g m req d Hm Hd Hq) as (log' & E & Hlog).
  rewrite E. cbn [filter forwards is_invoked is_outbound orb].
  now rewrite Hlog.
Qed.

(** X6. When the upstream call of a request fails, one line is printed,
    and it carries the detail of the error: 'Gemini API Error: ' for an
    [APIError], 'Internal Server Error: ' for anything else. *)
Theorem execute_logs_upstream_failure
    (g : globals) (m : GenerativeModel) (req : request)
    (d : list (str * val)) (e : exn) :
  model g = Some m ->
  get_json req = VDict d ->
  query_rejected (dict_get d (lit "query")) = false ->
  upstream_call m (dict_get d (lit "query")) = inl e ->
  printed (execute g req) =
    [Print ((if is_api_error e
             then lit "Gemini API Error: "
             else lit "Internal Server Error: ") ++ exn_str e)].
Proof.
  intros Hm Hd Hq Hup.
  rewrite (execute_accepted g m req d Hm Hd Hq). cbv zeta. rewrite Hup.
  destruct (is_api_error e); reflexivity.
Qed.

Lemma execute_logs_upstream_failure_witness :
  printed
    (execute
       (Sample.ready
          (Sample.failing (OtherError (lit "TypeError") (lit "bad argument"))))
       (Sample.post (VDict [(lit "query", VStr (lit "new phone?"))]))) =
    [Print ((if is_api_error (OtherError (lit "TypeError") (lit "bad argument"))
             then lit "Gemini API Error: "
             else lit "Internal Server Error: ")
            ++ exn_str (OtherError (lit "TypeError") (lit "bad argument")))].
Proof.
  apply (execute_logs_upstream_failure
           (Sample.ready
              (Sample.failing (OtherError (lit "TypeError") (lit "bad argument"))))
           (Sample.failing (OtherError (lit "TypeError") (lit "bad argument")))
           (Sample.post (VDict [(lit "query", VStr (lit "new phone?"))]))
           [(lit "query", VStr (lit "new phone?"))]
           (OtherError (lit "TypeError") (lit "bad argument")));
    reflexivity.
Defined.

(** X7. The handler prints only when it answers an upstream failure: if
    a run printed anything, the handle was usable, the executor had
    been entered, and the answer is 500 or 503. *)
Theorem execute_prints_only_on_upstream_failure
    (g : globals) (req : request) :
  printed (execute g req) <> [] ->
  usable g = true /\ invoked (execute g req) = true
  /\ exists r, outcome (execute g req) = inr r
       /\ (status r = 500%Z \/ status r = 503%Z).
Proof.
  intros Hp.
  destruct (execute_paths g req)
    as [Hm E | m Hm Ht E | m e' Hm Ht Hn E
        | m d Hm Hd Hne Hq E | m d r log Hm Hd Hq _];
    try (rewrite E in Hp; now destruct Hp).
  unfold usable. rewrite Hm. split; [reflexivity|].
  rewrite (execute_accepted g m req d Hm Hd Hq) in Hp |- *. cbv zeta in *.
  destruct (upstream_call m (dict_get d (lit "query"))) as [e | t];
    [destruct (is_api_error e)|].
  - split; [reflexivity|]. eexists; split; [reflexivity|]. now right.
  - split; [reflexivity|]. eexists; split; [reflexivity|]. now left.
  - now destruct Hp.
Qed.

Lemma execute_prints_only_on_upstream_failure_witness :
  usable (Sample.ready (Sample.failing (APIError (lit "down")))) = true
  /\ invoked
       (execute (Sample.ready (Sample.failing (APIError (lit "down"))))
          (Sample.post (VDict [(lit "query", VStr (lit "new phone?"))]))) = true
  /\ exists r,
       outcome
         (execute (Sample.ready (Sample.failing (APIError (lit "down"))))
            (Sample.post (VDict [(lit "query", VStr (lit "new phone?"))])))
       = inr r
       /\ (status r = 500%Z \/ status r = 503%Z).
Proof.
  apply (execute_prints_only_on_upstream_failure
           (Sample.ready (Sample.failing (APIError (lit "down"))))
           (Sample.post (VDict [(lit "query", VStr (lit "new phone?"))]))).
  vm_compute. discriminate.
Defined.

(** X8. Whatever [/api/execute] returns has one of two shapes: status
    200 with [{success: true, result: <string>}], or status 400, 500 or
    503 with [{error: <non-empty string>}] and no other field. *)
Theorem execute_response_shape (g : globals) (req : request) (r : response) :
  outcome (execute g req) = inr r ->
  (status r = 200%Z
   /\ exists t, body r = VDict [(lit "success", VBool true);
                                (lit "result", VStr t)])
  \/ (In (status r) [400%Z; 500%Z; 503%Z]
      /\ exists msg, body r = VDict [(lit "error", VStr msg)] /\ msg <> []).
Proof.
  intros Hr.
  destruct (execute_paths g req)
    as [Hm E | m Hm Ht E | m e' Hm Ht Hn E
        | m d Hm Hd Hne Hq E | m d r' log Hm Hd Hq _].
  1-4: rewrite E in Hr; try discriminate Hr; injection Hr as <-; right;
       (split; [simpl; tauto|]); eexists; (split; [reflexivity|]);
       discriminate.
  rewrite (execute_accepted g m req d Hm Hd Hq) in Hr. cbv zeta in Hr.
  destruct (upstream_call m (dict_get d (lit "query"))) as [e | t];
    [destruct (is_api_error e)|]; injection Hr as <-.
  - right. split; [simpl; tauto|]. eexists; split; [reflexivity|].
    discriminate.
  - right. split; [simpl; tauto|]. eexists; split; [reflexivity|].
    discriminate.
  - left. split; [reflexivity|]. now exists t.
Qed.

Lemma execute_response_shape_witness :
  (status invalid_payload = 200%Z
   /\ exists t, body invalid_payload = VDict [(lit "success", VBool true);
                                              (lit "result", VStr t)])
  \/ (In (status invalid_payload) [400%Z; 500%Z; 503%Z]
      /\ exists msg, body invalid_payload = VDict [(lit "error", VStr msg)]
           /\ msg <> []).
Proof.
  apply (execute_response_shape
           (Sample.ready (Sample.answering (lit "fine")))
           (Sample.post (VStr [])) invalid_payload).
  reflexivity.
Defined.

(** X9. A 200 is only ever given with the upstream's own text: if
    [/api/execute] answers 200, the handle exists, the payload is an
    object whose [query] is a string, the upstream call for that string
    succeeded, and [result] is exactly the text it returned. *)
Theorem execute_ok_only_from_upstream
    (g : globals) (req : request) (r : response) :
  outcome (execute g req) = inr r ->
  status r = 200%Z ->
  exists m d q t,
    model g = Some m /\ get_json req = VDict d
    /\ dict_get d (lit "query") = VStr q
    /\ upstream_call m (VStr q) = inr t
    /\ r = success_response t.
Proof.
  intros Hr Hs.
  destruct (execute_paths g req)
    as [Hm E | m Hm Ht E | m e' Hm Ht Hn E
        | m d Hm Hd Hne Hq E | m d r' log Hm Hd Hq _].
  1-4: rewrite E in Hr; try discriminate Hr; injection Hr as <-;
       discriminate Hs.
  rewrite (execute_accepted g m req d Hm Hd Hq) in Hr. cbv zeta in Hr.
  destruct (proj1 (query_accepted_iff _) Hq) as (q & Hdq & _).
  rewrite Hdq in Hr.
  destruct (upstream_call m (VStr q)) as [e | t] eqn:Hup;
    [destruct (is_api_error e)|]; injection Hr as <-; try discriminate Hs.
  now exists m, d, q, t.
Qed.

Lemma execute_ok_only_from_upstream_witness :
  exists m d q t,
    model (Sample.ready (Sample.answering (lit "fine"))) = Some m
    /\ get_json (Sample.post (VDict [(lit "query", VStr (lit "new phone?"))]))
       = VDict d
    /\ dict_get d (lit "query") = VStr q
    /\ upstream_call m (VStr q) = inr t
    /\ success_response (lit "fine") = success_response t.
Proof.
  apply (execute_ok_only_from_upstream
           (Sample.ready (Sample.answering (lit "fine")))
           (Sample.post (VDict [(lit "query", VStr (lit "new phone?"))]))
           (success_response (lit "fine")));
    reflexivity.
Defined.

(** X10. The query executor validates nothing itself: given a handle, it
    makes one outbound call for whatever query it receives, blank or
    not a string included, with the fixed persona and the
    [google_search] tool, and hands back the upstream's outcome, text
    or error, as it is. *)
Theorem execute_budget_buddy_with_model
    (g : globals) (m : GenerativeModel) (query : val) :
  model g = Some m ->
  trace (execute_budget_buddy g query) =
    [Invoked query;
     Outbound query system_prompt
       (VList [VDict [(lit "google_search", VDict [])]])]
  /\ outcome (execute_budget_buddy g query) =
       match generate_content m query system_prompt tools with
       | inl e => inl e
       | inr response => text response
       end.
Proof.
  intros Hm. rewrite (execute_budget_buddy_some g m query Hm).
  split; reflexivity.
Qed.

Lemma execute_budget_buddy_with_model_witness :
  trace (execute_budget_buddy (Sample.ready (Sample.answering (lit "fine")))
           (VStr (lit "   "))) =
    [Invoked (VStr (lit "   "));
     Outbound (VStr (lit "   ")) system_prompt
       (VList [VDict [(lit "google_search", VDict [])]])]
  /\ outcome
       (execute_budget_buddy (Sample.ready (Sample.answering (lit "fine")))
          (VStr (lit "   "))) =
       match generate_content (Sample.answering (lit "fine"))
               (VStr (lit "   ")) system_prompt tools with
       | inl e => inl e
       | inr response => text response
       end.
Proof.
  apply (execute_budget_buddy_with_model
           (Sample.ready (Sample.answering (lit "fine")))
           (Sample.answering (lit "fine")) (VStr (lit "   "))).
  reflexivity.
Defined.

(** ** Further properties of the start-up *)

(** X11. Once the imports of lines 1 to 5 have succeeded: with
    [GOOGLE_API_KEY] unset or empty, the code of lines 10 to 31 prints
    the FATAL line, calls neither [genai.configure] nor
    [GenerativeModel] (its outcome is the same for every library) and
    leaves [model] at [None]; from then on [/check] answers 503 and
    [/api/execute] answers 503 to every request. *)
Theorem startup_without_key_degrades
    (lib : genai) (k : option str) (req : request) :
  k = None \/ k = Some [] ->
  startup lib k =
    ([Print (lit "FATAL: GOOGLE_API_KEY environment variable not found. The application cannot start.")],
     {| API_KEY := k; model := None |})
  /\ check (snd (startup lib k)) = ([], inr check_failed)
  /\ execute (snd (startup lib k)) req = ([], inr not_initialized).
Proof.
  intros Hk.
  assert (E : startup lib k =
              ([Print (lit "FATAL: GOOGLE_API_KEY environment variable not found. The application cannot start.")],
               {| API_KEY := k; model := None |})).
  { destruct Hk as [-> | ->]; reflexivity. }
  rewrite E. split; [reflexivity|].
  split; [now apply check_none | now apply execute_none].
Qed.

Lemma startup_without_key_degrades_witness :
  startup (Sample.lib_ok (Sample.answering (lit "fine"))) (Some []) =
    ([Print (lit "FATAL: GOOGLE_API_KEY environment variable not found. The application cannot start.")],
     {| API_KEY := Some []; model := None |})
  /\ check (snd (startup (Sample.lib_ok (Sample.answering (lit "fine")))
                   (Some []))) = ([], inr check_failed)
  /\ execute (snd (startup (Sample.lib_ok (Sample.answering (lit "fine")))
                     (Some [])))
       (Sample.post (VDict [(lit "query", VStr (lit "new phone?"))]))
     = ([], inr not_initialized).
Proof.
  apply (startup_without_key_degrades
           (Sample.lib_ok (Sample.answering (lit "fine"))) (Some [])
           (Sample.post (VDict [(lit "query", VStr (lit "new phone?"))]))).
  right. reflexivity.
Defined.

(** X12. After the code of lines 10 to 31 the handle is usable exactly
    when the key is present and not empty, [genai.configure] returned
    for it and [GenerativeModel('gemini-2.5-flash')] returned. In that
    case [model] is the object that constructor returned, the key is
    kept, and nothing was printed. *)
Theorem startup_builds_handle_iff (lib : genai) (k : option str) :
  (usable (snd (startup lib k)) = true <->
   exists key m,
     k = Some key /\ key <> [] /\ configure lib key = None
     /\ GenerativeModel_new lib key (lit "gemini-2.5-flash") = inr m)
  /\ (forall key m,
        k = Some key -> key <> [] -> configure lib key = None ->
        GenerativeModel_new lib key (lit "gemini-2.5-flash") = inr m ->
        startup lib k = ([], {| API_KEY := k; model := Some m |})).
Proof.
  assert (Hbuild : forall key m,
            k = Some key -> key <> [] -> configure lib key = None ->
            GenerativeModel_new lib key (lit "gemini-2.5-flash") = inr m ->
            startup lib k = ([], {| API_KEY := k; model := Some m |})).
  { intros key m -> Hne Hc Hn. unfold startup.
    destruct key as [|c key]; [congruence|].
    change MODEL_TO_USE with (lit "gemini-2.5-flash").
    now rewrite Hc, Hn. }
  split; [split|exact Hbuild].
  - unfold startup, usable.
    destruct k as [[|c key]|]; try discriminate.
    change MODEL_TO_USE with (lit "gemini-2.5-flash").
    destruct (configure lib (c :: key)) eqn:Hc; [discriminate|].
    destruct (GenerativeModel_new lib (c :: key) (lit "gemini-2.5-flash"))
      as [e|m] eqn:Hn; [discriminate|].
    intros _. exists (c :: key), m. repeat split; auto. discriminate.
  - intros (key & m & Hk & Hne & Hc & Hn).
    now rewrite (Hbuild key m Hk Hne Hc Hn).
Qed.

Lemma startup_builds_handle_iff_witness :
  startup (Sample.lib_ok (Sample.answering (lit "fine")))
    (Some (lit "AIza-sample")) =
    ([], {| API_KEY := Some (lit "AIza-sample");
            model := Some (Sample.answering (lit "fine")) |}).
Proof.
  apply (proj2
           (startup_builds_handle_iff
              (Sample.lib_ok (Sample.answering (lit "fine")))
              (Some (lit "AIza-sample")))
           (lit "AIza-sample") (Sample.answering (lit "fine")));
    [reflexivity | discriminate | reflexivity | reflexivity].
Defined.

(** X13. When the key is present but the library refuses it, start-up
    does not fail: whether [genai.configure] raises, or it returns and
    the constructor raises, one line 'ERROR: Failed to configure Google
    Generative AI: ' with the error's detail is printed and [model] is
    [None]; if [configure] raised, the constructor is not consulted. *)
Theorem startup_survives_library_failure
    (lib : genai) (key : str) (e : exn) :
  key <> [] ->
  configure lib key = Some e
  \/ (configure lib key = None
      /\ GenerativeModel_new lib key (lit "gemini-2.5-flash") = inl e) ->
  startup lib (Some key) =
    ([Print (lit "ERROR: Failed to configure Google Generative AI: "
             ++ exn_str e)],
     {| API_KEY := Some key; model := None |}).
Proof.
  intros Hne H. unfold startup.
  destruct key as [|c key]; [congruence|].
  change MODEL_TO_USE with (lit "gemini-2.5-flash").
  destruct H as [Hc | [Hc Hn]].
  - now rewrite Hc.
  - now rewrite Hc, Hn.
Qed.

Lemma startup_survives_library_failure_witness :
  startup (SampleLib.refusing (OtherError (lit "ValueError") (lit "bad key")))
    (Some (lit "AIza-sample")) =
    ([Print (lit "ERROR: Failed to configure Google Generative AI: "
             ++ exn_str (OtherError (lit "ValueError") (lit "bad key")))],
     {| API_KEY := Some (lit "AIza-sample"); model := None |})
  /\ startup
       (SampleLib.unbuildable (OtherError (lit "ValueError") (lit "no model")))
       (Some (lit "AIza-sample")) =
       ([Print (lit "ERROR: Failed to configure Google Generative AI: "
                ++ exn_str (OtherError (lit "ValueError") (lit "no model")))],
        {| API_KEY := Some (lit "AIza-sample"); model := None |}).
Proof.
  split.
  - apply (startup_survives_library_failure
             (SampleLib.refusing (OtherError (lit "ValueError") (lit "bad key")))
             (lit "AIza-sample")
             (OtherError (lit "ValueError") (lit "bad key")));
      [discriminate | left; reflexivity].
  - apply (startup_survives_library_failure
             (SampleLib.unbuildable
                (OtherError (lit "ValueError") (lit "no model")))
             (lit "AIza-sample")
             (OtherError (lit "ValueError") (lit "no model")));
      [discriminate | right; split; reflexivity].
Defined.
